(** * chromalog.colorizer: colour-tag resolution, colorized wrappers, printer

    A shallow embedding of [chromalog/colorizer.py] and the properties of
    its colour-pair resolver ([GenericColorizer.get_color_pair]), of the
    wrapper [ColorizedObject] and of [Printer.__call__].

    Python [str] values are modelled by [string]; the development only
    relies on a string being a finite sequence of characters, iterated one
    character at a time.  A [dict] with string keys is a [gmap string _]. *)

From Stdlib Require Import Ascii String.
From stdpp Require Import gmap strings list fin_maps.

Open Scope string_scope.

(** ** Python truthiness

    [if x:], [not x], [x or y] and [filter(None, xs)] all test the truth
    value of an object: [None], the empty string and empty containers are
    falsy, a tuple of two items is never empty. *)

Class Truthy (A : Type) := truthy : A → bool.
Global Hint Mode Truthy ! : typeclass_instances.

Global Instance string_truthy : Truthy string :=
  λ s, match s with EmptyString => false | String _ _ => true end.
Global Instance list_truthy {A} : Truthy (list A) :=
  λ l, match l with [] => false | _ :: _ => true end.
Global Instance pair_truthy {A B} : Truthy (A * B) := λ _, true.
Global Instance option_truthy {A} `{Truthy A} : Truthy (option A) :=
  λ o, match o with None => false | Some x => truthy x end.
Global Instance gmap_truthy `{Countable K} {V} : Truthy (gmap K V) :=
  λ m, negb (bool_decide (m = ∅)).

(** [filter(None, xs)] over the results of [dict.get]: the misses ([None])
    and the falsy hits are dropped, the order is kept. *)
Definition filter_None {A} `{Truthy A} (xs : list (option A)) : list A :=
  omap (λ o, match o with
             | Some x => if truthy x then Some x else None
             | None => None
             end) xs.

(** [''.join(xs)] *)
Definition join (xs : list string) : string := foldr String.app "" xs.

(** ** Colour tags

    A [color_tag] attribute holds either one string or a sequence of
    strings.  [for tag in color_tag] walks the items of a sequence, and the
    one-character substrings of a string. *)

Inductive tags : Type :=
| TagStr (s : string)
| TagList (l : list string).

Global Instance tags_truthy : Truthy tags :=
  λ t, match t with TagStr s => truthy s | TagList l => truthy l end.

Fixpoint chars (s : string) : list string :=
  match s with
  | EmptyString => []
  | String c s' => String c EmptyString :: chars s'
  end.

Definition iter (t : tags) : list string :=
  match t with TagStr s => chars s | TagList l => l end.

(** ** Palette and colorizer *)

(** A colour pair [(start, stop)]. *)
Abbreviation color_pair_t := (string * string)%type.

(** [pair[::-1]] *)
Definition reversed_pair (p : color_pair_t) : color_pair_t := (p.2, p.1).

Record GenericColorizer : Type := mkColorizer {
  color_map : gmap string color_pair_t;
  default_color_tag : option string;
}.

(** [d.get(key)] where [key] may be [None]: the keys of a palette are
    strings, so [None] is never found. *)
Definition dict_get {V} (d : gmap string V) (key : option string) : option V :=
  key ≫= (λ k, d !! k).

(** The value of [pairs] after the tag lookups and the default fallback
    (first two statements of [get_color_pair]). *)
Definition tag_pairs (self : GenericColorizer) (color_tag : tags)
  : list color_pair_t :=
  let pairs :=
    filter_None ((λ tag, color_map self !! tag) <$> iter color_tag) in
  if negb (truthy pairs) then
    match dict_get (color_map self) (default_color_tag self) with
    | Some pair_ => if truthy pair_ then [pair_] else pairs
    | None => pairs
    end
  else pairs.

(** The value of [pairs] when [get_color_pair] reaches its [return]. *)
Definition color_pairs (self : GenericColorizer) (color_tag : tags)
    (context_color_tag : option string) : list color_pair_t :=
  let pairs := tag_pairs self color_tag in
  if truthy context_color_tag then
    match dict_get (color_map self) context_color_tag with
    | Some ctx_pair =>
        if truthy ctx_pair then ([reversed_pair ctx_pair; ctx_pair] ++ pairs)%list
        else pairs
    | None => pairs
    end
  else pairs.

Definition get_color_pair (self : GenericColorizer) (color_tag : tags)
    (context_color_tag : option string) : color_pair_t :=
  let pairs := color_pairs self color_tag context_color_tag in
  (join (fst <$> pairs), join (snd <$> reverse pairs)).

(** ** Exceptions and results *)

Inductive exn : Type :=
| ValueError | IndexError | KeyError | AttributeError
| Unsupported (* a feature of [str.format] outside the modelled fragment *).

Inductive result (A : Type) : Type :=
| Ok (a : A)
| Raise (e : exn).
Arguments Ok {A} a.
Arguments Raise {A} e.

Definition result_bind {A B} (r : result A) (k : A → result B) : result B :=
  match r with Ok a => k a | Raise e => Raise e end.

(** ** Protocols of the values handed to a colorizer

    [colorize] reads [getattr(obj, 'color_tag', None)]; rendering calls
    [str(obj)]; [ColorizedObject.__eq__] compares inner objects with [==]. *)

Class Colorizable (V : Type) := getattr_color_tag : V → option tags.
Class Str (V : Type) := str : V → string.
Class PyEq (V : Type) := py_eq : V → V → bool.
Global Hint Mode Colorizable ! : typeclass_instances.
Global Hint Mode Str ! : typeclass_instances.
Global Hint Mode PyEq ! : typeclass_instances.

(** A plain [str] has no [color_tag] attribute. *)
Global Instance string_colorizable : Colorizable string := λ _, None.
Global Instance string_str : Str string := λ s, s.
Global Instance string_py_eq : PyEq string := String.eqb.

(** [None == x], [(a, b) == (c, d)] on optional colour pairs. *)
Global Instance color_pair_py_eq : PyEq (option color_pair_t) :=
  λ x y, match x, y with
         | None, None => true
         | Some (a, b), Some (c, d) => String.eqb a c && String.eqb b d
         | _, _ => false
         end.

(** Values of two kinds in one collection. *)
Global Instance sum_colorizable `{Colorizable A, Colorizable B}
  : Colorizable (A + B) :=
  λ v, match v with inl a => getattr_color_tag a | inr b => getattr_color_tag b end.
Global Instance sum_str `{Str A, Str B} : Str (A + B) :=
  λ v, match v with inl a => str a | inr b => str b end.

Record ColorizableMixin : Type := mkColorizableMixin {
  color_tag : option tags;
}.
Global Instance mixin_colorizable : Colorizable ColorizableMixin := color_tag.

(** Modelled from the spec: the marking wrapper [chromalog.mark.Mark] is
    not among the sources.  It tags a value with a colour tag and is
    consumed as a value exposing the wrapped value and [color_tag]; it
    renders as the wrapped value.  The colorizer tests resolve
    [Mark('hello', 'my_tag')] to the pair of the whole tag ['my_tag'], so a
    tag given as one string is exposed as the one-item sequence. *)
Record Mark (A : Type) : Type := mkMark {
  mark_obj : A;
  mark_color_tag : list string;
}.
Arguments mkMark {A} _ _.
Arguments mark_obj {A} _.
Arguments mark_color_tag {A} _.

Definition Mark_init {A} (obj : A) (color_tag : tags) : Mark A :=
  mkMark obj (match color_tag with TagStr s => [s] | TagList l => l end).

Global Instance mark_colorizable {A} : Colorizable (Mark A) :=
  λ m, Some (TagList (mark_color_tag m)).
Global Instance mark_str `{Str A} : Str (Mark A) := λ m, str (mark_obj m).

(** ** ColorizedObject *)

Record ColorizedObject (V : Type) : Type := mkColorizedObject {
  obj : V;
  color_pair : option color_pair_t;
}.
Arguments mkColorizedObject {V} _ _.
Arguments obj {V} _.
Arguments color_pair {V} _.

(** [ColorizedObject.__str__].  The three named fields of the template
    ["{color_start}{obj}{color_stop}"] are rendered one after the other. *)
Global Instance ColorizedObject_str `{Str V} : Str (ColorizedObject V) :=
  λ self,
    if negb (truthy (color_pair self)) then str (obj self)
    else match color_pair self with
         | Some cp => cp.1 +:+ str (obj self) +:+ cp.2
         | None => str (obj self)
         end.

(** [ColorizedObject.__eq__] on two instances of the class. *)
Global Instance ColorizedObject_eq `{PyEq V} : PyEq (ColorizedObject V) :=
  λ self other,
    py_eq (obj other) (obj self) && py_eq (color_pair other) (color_pair self).

(** ** GenericColorizer.colorize *)

Definition colorize `{Colorizable V} (self : GenericColorizer) (obj : V)
    (context_color_tag : option string) : ColorizedObject V :=
  let color_tag := getattr_color_tag obj in
  let color_pair :=
    match color_tag with
    | Some t =>
        if truthy t then Some (get_color_pair self t context_color_tag)
        else None
    | None => None
    end in
  mkColorizedObject obj color_pair.

(** ** [str.format]

    The fragment of Python's format-string language used through the
    printer: literal text, the escapes [{{] and [}}], automatically numbered
    fields [{}], numbered fields [{0}] and named fields [{name}], each
    rendered with [str].  Conversions ([!r]), format specifications
    ([:>10]) and attribute or item access ([.attr], [[key]]) are reported as
    [Unsupported]. *)

Inductive fmt_mode : Type :=
| Text                   (* in literal text *)
| Open                   (* just read a single left brace *)
| Close                  (* just read a single right brace *)
| Field (name : string)  (* inside a replacement field *).

(** Automatic/manual numbering state of CPython's formatter. *)
Inductive an_state : Type := ANS_INIT | ANS_AUTO | ANS_MANUAL.

Definition is_digit (c : ascii) : bool :=
  (48 <=? nat_of_ascii c)%nat && (nat_of_ascii c <=? 57)%nat.

(** The index denoted by a field name made of decimal digits only.  The
    index is not bounded here; an index too large for a machine integer,
    which CPython refuses, is outside the modelled fragment. *)
Fixpoint get_integer_from (acc : nat) (s : string) : option nat :=
  match s with
  | EmptyString => Some acc
  | String c s' =>
      if is_digit c
      then get_integer_from (10 * acc + (nat_of_ascii c - 48)) s'
      else None
  end.

Definition get_integer (s : string) : option nat :=
  match s with EmptyString => None | _ => get_integer_from 0 s end.

Section format.
Context {V : Type} `{Str V}.
Variables (args : list V) (kwargs : gmap string V).

(** The object a field name refers to, and the numbering state after it. *)
Definition get_field (name : string) (an : an_state * nat)
  : result (V * (an_state * nat)) :=
  match name with
  | EmptyString =>
      match an.1 with
      | ANS_MANUAL => Raise ValueError
      | _ => match args !! an.2 with
             | Some v => Ok (v, (ANS_AUTO, S an.2))
             | None => Raise IndexError
             end
      end
  | _ =>
      match get_integer name with
      | Some i =>
          match an.1 with
          | ANS_AUTO => Raise ValueError
          | _ => match args !! i with
                 | Some v => Ok (v, (ANS_MANUAL, an.2))
                 | None => Raise IndexError
                 end
          end
      | None =>
          match kwargs !! name with
          | Some v => Ok (v, an)
          | None => Raise KeyError
          end
      end
  end.

Definition ascii_in (c : ascii) (s : string) : bool :=
  bool_decide (String c EmptyString ∈ chars s).

(** One pass over the template, character by character; [out] is the
    text produced so far. *)
Fixpoint format_from (mode : fmt_mode) (an : an_state * nat) (out : string)
    (template : string) : result string :=
  let field name rest :=
    result_bind (get_field name an)
      (λ '(v, an'), format_from Text an' (out +:+ str v) rest) in
  match template with
  | EmptyString =>
      match mode with
      | Text => Ok out
      | Open | Close | Field _ => Raise ValueError
      end
  | String c rest =>
      match mode with
      | Text =>
          if ascii_in c "{" then format_from Open an out rest
          else if ascii_in c "}" then format_from Close an out rest
          else format_from Text an (out +:+ String c EmptyString) rest
      | Open =>
          if ascii_in c "{" then format_from Text an (out +:+ "{") rest
          else if ascii_in c "}" then field EmptyString rest
          else if ascii_in c "[!:." then Raise Unsupported
          else format_from (Field (String c EmptyString)) an out rest
      | Close =>
          if ascii_in c "}" then format_from Text an (out +:+ "}") rest
          else Raise ValueError
      | Field name =>
          if ascii_in c "}" then field name rest
          else if ascii_in c "{" then Raise ValueError
          else if ascii_in c "[!:." then Raise Unsupported
          else format_from (Field (name +:+ String c EmptyString)) an out rest
      end
  end.

(** [template.format] applied to the positional [args] and the named
    [kwargs] *)
Definition str_format (template : string) : result string :=
  format_from Text (ANS_INIT, 0%nat) "" template.
End format.

(** ** Output stream

    The printer holds a reference to a stream object and calls its
    [write] method.  The state of the stream is the sequence of the
    arguments of the [write] calls made so far, oldest first; what a
    [StringIO] returns from [getvalue()] is their concatenation.  A
    computation takes the state of the stream and gives a result or an
    exception together with the new state. *)

Definition stream : Type := list string.

Definition getvalue (s : stream) : string := join s.

Definition IO (A : Type) : Type := stream → result A * stream.

Global Instance IO_ret : MRet IO := λ A a s, (Ok a, s).
Global Instance IO_bind : MBind IO :=
  λ A B k m s, match m s with
               | (Ok a, s') => k a s'
               | (Raise e, s') => (Raise e, s')
               end.

Definition lift {A} (r : result A) : IO A := λ s, (r, s).

(** [stream.write(data)] *)
Definition write (data : string) : IO unit := λ s, (Ok tt, (s ++ [data])%list).

Definition newline : string := String "010"%char EmptyString.

(** ** Printer *)

Record Printer : Type := mkPrinter {
  colorizer : GenericColorizer;
  context_color_tag : option string;
}.

(** [Printer.__call__(msg, *args, **kwargs)] *)
Definition Printer_call `{Colorizable V, Str V} (self : Printer)
    (msg : string) (args : list V) (kwargs : gmap string V) : IO unit :=
  let '(msg, cfunc) :=
    match context_color_tag self with
    | Some ctx =>
        if truthy ctx then
          (str (colorize (colorizer self) (Mark_init msg (TagStr ctx)) None),
           λ v : V, colorize (colorizer self) v (Some ctx))
        else (msg, λ v : V, colorize (colorizer self) v None)
    | None => (msg, λ v : V, colorize (colorizer self) v None)
    end in
  let args := cfunc <$> args in
  let kwargs := cfunc <$> kwargs in
  text ← lift (str_format args kwargs msg);
  write text;;
  write newline.

(** [Printer.with_context] *)
Definition with_context (self : Printer) (context_color_tag : option string)
  : Printer :=
  mkPrinter (colorizer self) context_color_tag.

(** [GenericColorizer.printer] *)
Definition printer (self : GenericColorizer)
    (context_color_tag : option string) : Printer :=
  mkPrinter self context_color_tag.

(** ** The colorizer classes and their built-in palettes *)

Inductive klass : Type :=
| GenericColorizer_class
| Colorizer_class
| MonochromaticColorizer_class.

(** The escape sequences of the terminal-styling library [colorama]. *)
Record Colorama : Type := mkColorama {
  Fore_CYAN : string;
  Fore_GREEN : string;
  Fore_YELLOW : string;
  Fore_RED : string;
  Back_RED : string;
  Style_DIM : string;
  Style_BRIGHT : string;
  Style_RESET_ALL : string;
}.

Section classes.
Variable colorama : Colorama.

(** The class attribute [default_color_map]; [GenericColorizer] itself
    defines none. *)
Definition default_color_map (cls : klass)
  : option (gmap string color_pair_t) :=
  match cls with
  | GenericColorizer_class => None
  | Colorizer_class =>
      Some (<["debug" := (Style_DIM colorama +:+ Fore_CYAN colorama,
                          Style_RESET_ALL colorama)]>
           (<["info" := (Style_RESET_ALL colorama, Style_RESET_ALL colorama)]>
           (<["important" := (Style_BRIGHT colorama, Style_RESET_ALL colorama)]>
           (<["success" := (Fore_GREEN colorama, Style_RESET_ALL colorama)]>
           (<["warning" := (Fore_YELLOW colorama, Style_RESET_ALL colorama)]>
           (<["error" := (Fore_RED colorama, Style_RESET_ALL colorama)]>
           (<["critical" := (Back_RED colorama, Style_RESET_ALL colorama)]>
            ∅)))))))
  | MonochromaticColorizer_class =>
      Some {[ "important" := ("**", "**") ]}
  end.

(** [GenericColorizer.__init__], called on an instance of class [cls]:
    [color_map or self.default_color_map] reads the class attribute only
    when [color_map] is falsy. *)
Definition GenericColorizer_init (cls : klass)
    (color_map : option (gmap string color_pair_t))
    (default_color_tag : option string) : result GenericColorizer :=
  result_bind
    (if truthy color_map then
       match color_map with
       | Some m => Ok m
       | None => Raise AttributeError
       end
     else
       match default_color_map cls with
       | Some m => Ok m
       | None => Raise AttributeError
       end)
    (λ m, Ok (mkColorizer m default_color_tag)).
End classes.

(** A [ColorizedObject] has the attributes [obj] and [color_pair] only:
    [getattr(wrapper, 'color_tag', None)] is [None]. *)
Global Instance ColorizedObject_colorizable {V} : Colorizable (ColorizedObject V) :=
  λ _, None.

(** ** Templates used to state the properties of the printer *)

(** Text without any brace. *)
Fixpoint no_braces (s : string) : bool :=
  match s with
  | EmptyString => true
  | String c s' =>
      negb (ascii_in c "{") && negb (ascii_in c "}") && no_braces s'
  end.







(** The template [lit1 {} lit2 {} ... litn {} last]. *)
Fixpoint auto_template (lits : list string) (last : string) : string :=
  match lits with
  | [] => last
  | lit :: lits' => lit +:+ "{}" +:+ auto_template lits' last
  end.

(** The text [lit1 v1 lit2 v2 ... litn vn last], each value rendered by
    [str]. *)
Fixpoint auto_text `{Str V} (lits : list string) (vs : list V) (last : string)
  : string :=
  match lits, vs with
  | lit :: lits', v :: vs' => lit +:+ str v +:+ auto_text lits' vs' last
  | _, _ => last
  end.

(** ** The colorizer tests, replayed on the model *)

Definition palette_ab : gmap string color_pair_t :=
  {[ "a" := ("[", "]"); "b" := ("<", ">") ]}.

Definition palette_abc : gmap string color_pair_t :=
  {[ "a" := ("[", "]"); "b" := ("(", ")"); "c" := ("<", ">") ]}.

(** A palette in which the empty string is a tag. *)
Definition palette_empty_key : gmap string color_pair_t :=
  {[ "" := ("<", ">"); "a" := ("[", "]") ]}.

Example test_colorizer_get_color_pair_not_found :
  get_color_pair (mkColorizer {[ "important" := ("**", "**") ]} None)
    (TagList ["a"]) None = ("", "").
Proof. reflexivity. Qed.

Example test_colorizer_get_color_pair_found_double :
  get_color_pair (mkColorizer palette_ab None) (TagList ["a"; "b"]) None
  = ("[<", ">]").
Proof. reflexivity. Qed.

Example test_colorizer_get_color_pair_not_found_with_default :
  get_color_pair (mkColorizer palette_ab (Some "b")) (TagList ["c"]) None
  = ("<", ">").
Proof. reflexivity. Qed.

Example test_colorizer_get_color_pair_found_with_context :
  get_color_pair (mkColorizer palette_ab None) (TagList ["a"]) (Some "b")
  = ("><[", "]><").
Proof. reflexivity. Qed.

Example test_colorizer_changes_colorizable_types_with_tags_and_context :
  colorize (mkColorizer palette_abc None)
    (Mark_init "v" (TagList ["a"; "b"])) (Some "c")
  = mkColorizedObject (Mark_init "v" (TagList ["a"; "b"])) (Some ("><[(", ")]><")).
Proof. reflexivity. Qed.

Example test_printer_with_context :
  Printer_call (with_context (printer (mkColorizer palette_abc None) None) (Some "c"))
    "this {} a {value} !"
    [inl "is"]
    ({[ "value" := inr (Mark_init "value" (TagList ["a"; "b"])) ]}
       : gmap string (string + Mark string))
    []
  = (Ok tt, ["<this is a ><[(value)]>< !>"; newline]).
Proof. vm_compute. reflexivity. Qed.

(** * Properties *)

(** ** Strings and joins *)

Lemma string_app_nil_r (s : string) : s +:+ "" = s.
Proof.
  induction s as [|c s IH]; [done |].
  change (String c (s +:+ "") = String c s). by rewrite IH.
Qed.

Lemma string_app_assoc (s1 s2 s3 : string) :
  (s1 +:+ s2) +:+ s3 = s1 +:+ (s2 +:+ s3).
Proof.
  induction s1 as [|c s1 IH]; [done |].
  change (String c ((s1 +:+ s2) +:+ s3) = String c (s1 +:+ (s2 +:+ s3))).
  by rewrite IH.
Qed.

Lemma join_nil : join [] = "".
Proof. done. Qed.

Lemma join_cons (x : string) (xs : list string) : join (x :: xs) = x +:+ join xs.
Proof. done. Qed.

Lemma join_app (xs ys : list string) : join (xs ++ ys) = join xs +:+ join ys.
Proof.
  induction xs as [|x xs IH]; [done |].
  rewrite <- app_comm_cons, !join_cons, IH. by rewrite string_app_assoc.
Qed.

Lemma join_singleton (x : string) : join [x] = x.
Proof. by rewrite join_cons, join_nil, string_app_nil_r. Qed.

(** ** The pair list of the resolver *)

Section resolver.
Implicit Types (self : GenericColorizer) (l : list string).
Implicit Types (cm : gmap string color_pair_t).

(** A palette hit is a 2-tuple, hence truthy: [filter(None, ...)] drops
    exactly the misses. *)
Lemma filter_None_lookup cm l :
  filter_None ((λ tag, cm !! tag) <$> l) = omap (λ tag, cm !! tag) l.
Proof.
  unfold filter_None. induction l as [|t l IH]; [done |].
  rewrite fmap_cons. cbn [omap list_omap]. rewrite IH.
  cbn. by destruct (cm !! t).
Qed.

Lemma omap_lookup_all_missing cm l :
  Forall (λ t, cm !! t = None) l → omap (λ tag, cm !! tag) l = [].
Proof.
  induction 1 as [|t l Ht _ IH]; [done |]. cbn. by rewrite Ht.
Qed.

Lemma omap_lookup_some_found cm l t :
  t ∈ l → is_Some (cm !! t) → omap (λ tag, cm !! tag) l ≠ [].
Proof.
  intros Hin [p Hp]. induction Hin as [t l | t t' l _ IH]; cbn.
  - by rewrite Hp.
  - destruct (cm !! t'); [done | by apply IH].
Qed.

(** The kept pairs of a tag list: the found ones, or else the default. *)
Lemma tag_pairs_found self l :
  omap (λ tag, color_map self !! tag) l ≠ [] →
  tag_pairs self (TagList l) = omap (λ tag, color_map self !! tag) l.
Proof.
  intros Hne. unfold tag_pairs. cbn [iter]. rewrite filter_None_lookup.
  by destruct (omap _ l).
Qed.

Lemma tag_pairs_fallback self l :
  omap (λ tag, color_map self !! tag) l = [] →
  tag_pairs self (TagList l)
  = match dict_get (color_map self) (default_color_tag self) with
    | Some p => [p]
    | None => []
    end.
Proof.
  intros Hnil. unfold tag_pairs. cbn [iter].
  rewrite filter_None_lookup, Hnil. cbn. by destruct (dict_get _ _).
Qed.

(** Wrapping by a non-empty context tag found in the palette. *)
Lemma color_pairs_context_found self (t : tags) c sc ec :
  c ≠ "" → color_map self !! c = Some (sc, ec) →
  color_pairs self t (Some c) = (ec, sc) :: (sc, ec) :: tag_pairs self t.
Proof.
  intros Hc Hlk. unfold color_pairs. cbn.
  destruct c as [|a c]; [done |]. cbn. by rewrite Hlk.
Qed.

Lemma color_pairs_no_context self (t : tags) :
  color_pairs self t None = tag_pairs self t.
Proof. done. Qed.

Lemma color_pairs_context_missing self (t : tags) ctx :
  dict_get (color_map self) ctx = None →
  color_pairs self t ctx = tag_pairs self t.
Proof.
  intros Hlk. unfold color_pairs. rewrite Hlk. by destruct (truthy ctx).
Qed.

(** The empty string is a falsy context tag: it is never looked up. *)
Lemma color_pairs_context_empty self (t : tags) :
  color_pairs self t (Some "") = tag_pairs self t.
Proof. done. Qed.
End resolver.

(** ** Joining the pair list *)

Section joined.
Implicit Types (self : GenericColorizer) (l : list string) (t : tags).

Lemma get_color_pair_no_context self t :
  get_color_pair self t None
  = (join (fst <$> tag_pairs self t), join (snd <$> reverse (tag_pairs self t))).
Proof. done. Qed.

(** A context tag found in the palette brackets whatever the tags alone
    resolve to. *)
Lemma get_color_pair_context_found self t c sc ec :
  c ≠ "" → color_map self !! c = Some (sc, ec) →
  get_color_pair self t (Some c)
  = (ec +:+ sc +:+ (get_color_pair self t None).1,
     (get_color_pair self t None).2 +:+ ec +:+ sc).
Proof.
  intros Hc Hlk. unfold get_color_pair.
  rewrite (color_pairs_context_found _ _ _ _ _ Hc Hlk), color_pairs_no_context.
  rewrite !fmap_cons, !join_cons, !reverse_cons, !fmap_app, !join_app.
  cbn [fst snd fmap list_fmap]. rewrite !join_singleton.
  by rewrite string_app_assoc.
Qed.

Lemma get_color_pair_context_missing self t ctx :
  dict_get (color_map self) ctx = None →
  get_color_pair self t ctx = get_color_pair self t None.
Proof.
  intros Hlk. unfold get_color_pair.
  by rewrite (color_pairs_context_missing _ _ _ Hlk), color_pairs_no_context.
Qed.

Lemma get_color_pair_single self a sa ea :
  color_map self !! a = Some (sa, ea) →
  get_color_pair self (TagList [a]) None = (sa, ea).
Proof.
  intros Hlk. rewrite get_color_pair_no_context, tag_pairs_found.
  - cbn. rewrite Hlk. cbn. by rewrite !string_app_nil_r.
  - cbn. by rewrite Hlk.
Qed.

(** With found tags the default tag plays no part. *)
Lemma tag_pairs_default_irrelevant self l d :
  omap (λ tag, color_map self !! tag) l ≠ [] →
  tag_pairs self (TagList l) = tag_pairs (mkColorizer (color_map self) d) (TagList l).
Proof. intros Hne. by rewrite !tag_pairs_found. Qed.
End joined.

(** ** Claims on the resolver *)

(** C1 (as stated, refuted).  With palette [a -> ("[", "]")],
    [b -> ("<", ">")], resolving [["a"]] under context ["b"] does not give
    [(ec + sa, ea + sc)], i.e. [(">[", "]<")]: the normal context pair is
    part of the result as well. *)
Lemma C1_context_pair_counterexample :
  palette_ab !! "b" = Some ("<", ">") ∧
  palette_ab !! "a" = Some ("[", "]") ∧
  get_color_pair (mkColorizer palette_ab None) (TagList ["a"]) (Some "b")
  ≠ (">" +:+ "[", "]" +:+ "<").
Proof. repeat split. vm_compute. discriminate. Qed.

(** C1 (amended).  For every palette holding a non-empty context tag [c]
    with pair [(sc, ec)] and a tag [a] with pair [(sa, ea)], whatever the
    default tag, [get_color_pair(['a'], c)] returns
    [(ec + sc + sa, ea + ec + sc)]. *)
Theorem C1_context_single_tag self c a sc ec sa ea :
  c ≠ "" →
  color_map self !! c = Some (sc, ec) →
  color_map self !! a = Some (sa, ea) →
  get_color_pair self (TagList [a]) (Some c)
  = (ec +:+ sc +:+ sa, ea +:+ ec +:+ sc).
Proof.
  intros Hc Hctx Ha.
  rewrite (get_color_pair_context_found _ _ _ _ _ Hc Hctx).
  by rewrite (get_color_pair_single _ _ _ _ Ha).
Qed.

Lemma C1_context_single_tag_witness :
  "b" ≠ "" ∧
  get_color_pair (mkColorizer palette_ab None) (TagList ["a"]) (Some "b")
  = (">" +:+ "<" +:+ "[", "]" +:+ ">" +:+ "<").
Proof.
  split; [discriminate |].
  apply (C1_context_single_tag (mkColorizer palette_ab None) "b" "a");
    [discriminate | reflexivity | reflexivity].
Defined.

(** C2 (as stated, refuted).  The context tag [""] is supplied and is a
    tag of the palette [palette_empty_key], with pair [("<", ">")], yet
    nothing is prepended to the pair of the tag ["a"]: the test
    [if context_color_tag:] takes the empty string for no context. *)
Lemma C2_empty_context_counterexample :
  palette_empty_key !! "" = Some ("<", ">") ∧
  palette_empty_key !! "a" = Some ("[", "]") ∧
  color_pairs (mkColorizer palette_empty_key None) (TagList ["a"]) (Some "")
  ≠ (">", "<") :: ("<", ">")
    :: color_pairs (mkColorizer palette_empty_key None) (TagList ["a"]) None ∧
  get_color_pair (mkColorizer palette_empty_key None) (TagList ["a"]) (Some "")
  ≠ (">" +:+ "<" +:+ "[", "]" +:+ ">" +:+ "<").
Proof. repeat split; vm_compute; discriminate. Qed.

(** C2 (amended).  When the supplied context tag [c] is a non-empty string
    and is in the palette with pair [(sc, ec)], the pair list gets exactly
    two more entries in front of the tag-derived pairs, the reversed pair
    [(ec, sc)] and then [(sc, ec)], so that a single found tag
    [a -> (sa, ea)] resolves to [(ec + sc + sa, ea + ec + sc)]; when [c] is
    not in the palette nothing is prepended. *)
Theorem C2_context_prepends_reversed_then_normal self (t : tags) c :
  (∀ sc ec,
     c ≠ "" → color_map self !! c = Some (sc, ec) →
     color_pairs self t (Some c)
     = (ec, sc) :: (sc, ec) :: color_pairs self t None
     ∧ ∀ a sa ea,
         color_map self !! a = Some (sa, ea) →
         get_color_pair self (TagList [a]) (Some c)
         = (ec +:+ sc +:+ sa, ea +:+ ec +:+ sc))
  ∧ (color_map self !! c = None →
     color_pairs self t (Some c) = color_pairs self t None).
Proof.
  split.
  - intros sc ec Hc Hctx. split.
    + by rewrite (color_pairs_context_found _ _ _ _ _ Hc Hctx).
    + intros a sa ea Ha.
      rewrite (get_color_pair_context_found _ _ _ _ _ Hc Hctx).
      by rewrite (get_color_pair_single _ _ _ _ Ha).
  - intros Hmiss. by rewrite (color_pairs_context_missing _ _ (Some c)).
Qed.

Lemma C2_context_prepends_witness :
  color_pairs (mkColorizer palette_ab None) (TagList ["a"]) (Some "b")
  = (">", "<") :: ("<", ">")
    :: color_pairs (mkColorizer palette_ab None) (TagList ["a"]) None
  ∧ get_color_pair (mkColorizer palette_ab None) (TagList ["a"]) (Some "b")
    = (">" +:+ "<" +:+ "[", "]" +:+ ">" +:+ "<")
  ∧ color_pairs (mkColorizer palette_ab None) (TagList ["a"]) (Some "z")
    = color_pairs (mkColorizer palette_ab None) (TagList ["a"]) None.
Proof.
  destruct (C2_context_prepends_reversed_then_normal
              (mkColorizer palette_ab None) (TagList ["a"]) "b") as [Hfound _].
  destruct (Hfound "<" ">") as [Hpairs Hjoin]; [discriminate | reflexivity |].
  destruct (C2_context_prepends_reversed_then_normal
              (mkColorizer palette_ab None) (TagList ["a"]) "z") as [_ Hmiss].
  split; [exact Hpairs |].
  split; [apply (Hjoin "a"); reflexivity | apply Hmiss; reflexivity].
Defined.

(** ** What the result depends on *)

Section dependence.
Implicit Types (self : GenericColorizer) (l : list string) (t : tags).

(** The colorizer and the tags matter only through the palette and the
    kept pairs. *)
Lemma get_color_pair_ext self self' t t' ctx :
  color_map self = color_map self' →
  tag_pairs self t = tag_pairs self' t' →
  get_color_pair self t ctx = get_color_pair self' t' ctx.
Proof.
  intros Hcm Hpairs. unfold get_color_pair, color_pairs.
  by rewrite Hcm, Hpairs.
Qed.

Lemma tag_pairs_omap self l l' :
  omap (λ tag, color_map self !! tag) l = omap (λ tag, color_map self !! tag) l' →
  tag_pairs self (TagList l) = tag_pairs self (TagList l').
Proof.
  intros Heq. unfold tag_pairs. cbn [iter]. by rewrite !filter_None_lookup, Heq.
Qed.

Lemma omap_lookup_filter_found self l :
  omap (λ tag, color_map self !! tag)
    (filter (λ tag, is_Some (color_map self !! tag)) l)
  = omap (λ tag, color_map self !! tag) l.
Proof.
  induction l as [|a l IH]; [done |].
  rewrite filter_cons. destruct (decide _) as [[p Hp] | Hnone].
  - cbn. by rewrite Hp, IH.
  - rewrite IH. cbn. destruct (color_map self !! a) eqn:Ha; [| done].
    exfalso. apply Hnone. by eexists.
Qed.

Lemma tag_pairs_default_missing self t :
  dict_get (color_map self) (default_color_tag self) = None →
  tag_pairs self t = tag_pairs (mkColorizer (color_map self) None) t.
Proof.
  intros Hmiss. unfold tag_pairs. rewrite Hmiss. cbn.
  by destruct (negb _).
Qed.
End dependence.

(** C4.  For two tags [t1 -> (s1, e1)] and [t2 -> (s2, e2)] of the palette,
    resolving [[t1, t2]] without context gives [(s1 + s2, e2 + e1)].  In
    general the start is the concatenation of the start strings of the pair
    list in list order and the stop is the concatenation of its stop
    strings in reverse list order; without context the pair list of a tag
    list with at least one hit is the list of its hits, in order. *)
Theorem C4_reverse_order_closing self :
  (∀ t1 t2 s1 e1 s2 e2,
     color_map self !! t1 = Some (s1, e1) →
     color_map self !! t2 = Some (s2, e2) →
     get_color_pair self (TagList [t1; t2]) None = (s1 +:+ s2, e2 +:+ e1))
  ∧ (∀ (t : tags) ctx,
       get_color_pair self t ctx
       = (join (fst <$> color_pairs self t ctx),
          join (reverse (snd <$> color_pairs self t ctx))))
  ∧ (∀ l : list string,
       omap (λ tag, color_map self !! tag) l ≠ [] →
       get_color_pair self (TagList l) None
       = (join (fst <$> omap (λ tag, color_map self !! tag) l),
          join (reverse (snd <$> omap (λ tag, color_map self !! tag) l)))).
Proof.
  split; [| split].
  - intros t1 t2 s1 e1 s2 e2 H1 H2.
    rewrite get_color_pair_no_context, tag_pairs_found; cbn; rewrite H1, H2; [| done].
    cbn. by rewrite !string_app_nil_r.
  - intros t ctx. unfold get_color_pair. by rewrite fmap_reverse.
  - intros l Hne.
    by rewrite get_color_pair_no_context, (tag_pairs_found _ _ Hne), fmap_reverse.
Qed.

Lemma C4_reverse_order_closing_witness :
  get_color_pair (mkColorizer palette_abc None) (TagList ["a"; "c"]) None
  = ("[" +:+ "<", ">" +:+ "]")
  ∧ get_color_pair (mkColorizer palette_abc None) (TagList ["a"; "x"; "b"; "c"]) None
    = (join ["["; "("; "<"], join [">"; ")"; "]"]).
Proof.
  destruct (C4_reverse_order_closing (mkColorizer palette_abc None))
    as (Htwo & _ & Hall).
  split.
  - apply Htwo; reflexivity.
  - rewrite Hall; [reflexivity | discriminate].
Defined.

(** C7.  When no tag of the list is in the palette (the empty list
    included) and the configured default tag is in the palette with pair
    [(sd, ed)], resolving without context gives [(sd, ed)]; when some tag
    of the list is found, the result is the same whatever the default tag
    is. *)
Theorem C7_default_fallback self (l : list string) :
  (∀ d sd ed,
     default_color_tag self = Some d →
     color_map self !! d = Some (sd, ed) →
     Forall (λ t, color_map self !! t = None) l →
     get_color_pair self (TagList l) None = (sd, ed))
  ∧ (∀ t ctx d',
       t ∈ l → is_Some (color_map self !! t) →
       get_color_pair self (TagList l) ctx
       = get_color_pair (mkColorizer (color_map self) d') (TagList l) ctx).
Proof.
  split.
  - intros d sd ed Hd Hlk Hall.
    rewrite get_color_pair_no_context, tag_pairs_fallback
      by by apply omap_lookup_all_missing.
    rewrite Hd. cbn. rewrite Hlk. cbn. by rewrite !string_app_nil_r.
  - intros t ctx d' Hin Hfound. apply get_color_pair_ext; [done |].
    apply tag_pairs_default_irrelevant. by eapply omap_lookup_some_found.
Qed.

Lemma C7_default_fallback_witness :
  get_color_pair (mkColorizer palette_ab (Some "b")) (TagList ["c"]) None
  = ("<", ">")
  ∧ get_color_pair (mkColorizer palette_ab (Some "b")) (TagList ["c"; "a"]) None
    = get_color_pair (mkColorizer palette_ab None) (TagList ["c"; "a"]) None.
Proof.
  split.
  - apply (proj1 (C7_default_fallback (mkColorizer palette_ab (Some "b")) ["c"])
             "b" "<" ">"); [reflexivity | reflexivity |].
    constructor; [reflexivity | constructor].
  - apply (proj2 (C7_default_fallback (mkColorizer palette_ab (Some "b")) ["c"; "a"])
             "a" None None).
    + right. left.
    + exists ("[", "]"). reflexivity.
Defined.

(** C8.  [get_color_pair] returns a pair for every palette, tag list,
    default tag and context tag (it is a total function: no lookup can
    raise), and every palette miss is skipped: the tags of the list that
    are not in the palette can be removed, a default tag that is not found
    acts like no default, a context tag that is not found acts like no
    context, and when every lookup misses (in particular for the empty list
    with no default and no context) the result is [("", "")]. *)
Theorem C8_misses_are_skipped self (l : list string) ctx :
  (∃ start stop, get_color_pair self (TagList l) ctx = (start, stop))
  ∧ get_color_pair self (TagList l) ctx
    = get_color_pair self
        (TagList (filter (λ tag, is_Some (color_map self !! tag)) l)) ctx
  ∧ (dict_get (color_map self) (default_color_tag self) = None →
     get_color_pair self (TagList l) ctx
     = get_color_pair (mkColorizer (color_map self) None) (TagList l) ctx)
  ∧ (dict_get (color_map self) ctx = None →
     get_color_pair self (TagList l) ctx = get_color_pair self (TagList l) None)
  ∧ (Forall (λ t, color_map self !! t = None) l →
     dict_get (color_map self) (default_color_tag self) = None →
     dict_get (color_map self) ctx = None →
     get_color_pair self (TagList l) ctx = ("", ""))
  ∧ get_color_pair (mkColorizer (color_map self) None) (TagList []) None
    = ("", "").
Proof.
  repeat apply conj.
  - by eexists _, _.
  - apply get_color_pair_ext; [done |]. apply tag_pairs_omap.
    by rewrite omap_lookup_filter_found.
  - intros Hmiss. apply get_color_pair_ext; [done |].
    by apply tag_pairs_default_missing.
  - apply get_color_pair_context_missing.
  - intros Hall Hd Hctx.
    rewrite (get_color_pair_context_missing _ _ _ Hctx), get_color_pair_no_context.
    rewrite tag_pairs_fallback by by apply omap_lookup_all_missing.
    by rewrite Hd.
  - done.
Qed.

Lemma C8_misses_are_skipped_witness :
  get_color_pair (mkColorizer palette_ab (Some "y")) (TagList ["x"; "a"]) (Some "z")
  = get_color_pair (mkColorizer palette_ab None) (TagList ["x"; "a"]) (Some "z")
  ∧ get_color_pair (mkColorizer palette_ab (Some "y")) (TagList ["x"; "a"]) (Some "z")
    = get_color_pair (mkColorizer palette_ab (Some "y")) (TagList ["x"; "a"]) None
  ∧ get_color_pair (mkColorizer palette_ab (Some "y")) (TagList ["x"]) (Some "z")
    = ("", "").
Proof.
  destruct (C8_misses_are_skipped
              (mkColorizer palette_ab (Some "y")) ["x"; "a"] (Some "z"))
    as (_ & _ & Hdefault & Hcontext & _).
  destruct (C8_misses_are_skipped
              (mkColorizer palette_ab (Some "y")) ["x"] (Some "z"))
    as (_ & _ & _ & _ & Hall & _).
  split; [apply Hdefault; reflexivity |].
  split; [apply Hcontext; reflexivity |].
  apply Hall; [| reflexivity | reflexivity].
  constructor; [reflexivity | constructor].
Defined.

(** ** Claims on [colorize] and the wrapper *)

(** For a tag made of one character, iterating the string gives the same
    tag sequence as the one-item list. *)
Lemma colorize_single_character_tag self (c : ascii) ctx :
  colorize self (mkColorizableMixin (Some (TagStr (String c "")))) ctx
  = mkColorizedObject (mkColorizableMixin (Some (TagStr (String c ""))))
      (color_pair
         (colorize self (mkColorizableMixin (Some (TagList [String c ""]))) ctx)).
Proof. done. Qed.

(** C5 (the code at the failing input).  With palette
    [info -> ("<", ">")], a [ColorizableMixin] whose [color_tag] is the
    string ["info"] is colorized with the pair [("", "")]: the string is
    walked character by character and none of ["i"], ["n"], ["f"], ["o"] is
    a tag of the palette.  The same object tagged with the list
    [["info"]] gets [("<", ">")]. *)
Theorem C5_string_tag_is_iterated_by_character :
  let self := mkColorizer {[ "info" := ("<", ">") ]} None in
  color_map self !! "info" = Some ("<", ">")
  ∧ color_pair (colorize self (mkColorizableMixin (Some (TagStr "info"))) None)
    = Some ("", "")
  ∧ color_pair (colorize self (mkColorizableMixin (Some (TagList ["info"]))) None)
    = Some ("<", ">").
Proof. repeat split. Qed.

Section wrapper_equality.
Context {V : Type} `{PyEq V}.

Lemma color_pair_py_eq_true (x y : option color_pair_t) :
  py_eq x y = true ↔ x = y.
Proof.
  destruct x as [[a b]|], y as [[c d]|]; cbn; try (split; congruence).
  rewrite andb_true_iff, !String.eqb_eq. split.
  - by intros [-> ->].
  - intros [= -> ->]. done.
Qed.

(** C9.  Two wrappers are equal exactly when their inner objects are
    equal (by [==]) and their colour pairs are equal; a wrapper without
    colour pair is never equal to the wrapper of the same object with
    the pair [("", "")]. *)
Theorem C9_ColorizedObject_eq (a b : ColorizedObject V) (v : V) :
  (py_eq a b = true
   ↔ py_eq (obj b) (obj a) = true ∧ color_pair b = color_pair a)
  ∧ py_eq (mkColorizedObject v None) (mkColorizedObject v (Some ("", "")))
    = false
  ∧ py_eq (mkColorizedObject v (Some ("", ""))) (mkColorizedObject v None)
    = false.
Proof.
  split; [| split].
  - unfold py_eq at 1, ColorizedObject_eq.
    by rewrite andb_true_iff, color_pair_py_eq_true.
  - unfold py_eq at 1, ColorizedObject_eq. cbn. apply andb_false_r.
  - unfold py_eq at 1, ColorizedObject_eq. cbn. apply andb_false_r.
Qed.
End wrapper_equality.

(** ** Claims on the printer *)

(** The call of the end-to-end printer test. *)
Definition test_printer_call : IO unit :=
  Printer_call (printer (mkColorizer palette_abc None) None)
    "this {} a {value} !"
    [inl "is"]
    ({[ "value" := inr (Mark_init "value" (TagList ["a"; "b"; "c"])) ]}
       : gmap string (string + Mark string)).

(** C3.  A [Colorizer] built on the palette [a -> ("[", "]")],
    [b -> ("(", ")")], [c -> ("<", ">")] without default tag, printing
    without context the template ["this {} a {value} !"] with the plain
    string ["is"] and a named value tagged [[a, b, c]], leaves in a fresh
    stream exactly the text ["this is a [(<value>)] !"] followed by a
    newline. *)
Theorem C3_printer_end_to_end (colorama : Colorama) :
  GenericColorizer_init colorama Colorizer_class (Some palette_abc) None
  = Ok (mkColorizer palette_abc None)
  ∧ ∃ s' : stream,
      test_printer_call [] = (Ok tt, s')
      ∧ getvalue s' = "this is a [(<value>)] !" +:+ newline.
Proof.
  split; [reflexivity |].
  exists ["this is a [(<value>)] !"; newline]. split; vm_compute; reflexivity.
Qed.

(** C6 (as stated, refuted).  The printer call of the end-to-end test
    does not leave the stream with one single [write]: the text and the
    newline are written by two calls. *)
Lemma C6_single_write_counterexample :
  ¬ ∃ data : string, (test_printer_call []).2 = ([] ++ [data])%list.
Proof. intros [data Hdata]. vm_compute in Hdata. discriminate Hdata. Qed.

(** C6 (amended).  A printer call substitutes the values, colorized under
    the context of the printer, into the template, which is the message
    itself without context and the message colorized as a [Mark] of the
    context tag otherwise.  When the substitution succeeds the call makes
    exactly two [write] calls, first the substituted text and then the
    newline, so that the content of the stream grows by the text followed
    by a newline; when the substitution raises, the call raises the same
    exception and writes nothing. *)
Theorem C6_text_then_newline `{Colorizable V, Str V} (self : Printer)
    (msg : string) (args : list V) (kwargs : gmap string V) (s : stream) :
  let ctx := if truthy (context_color_tag self)
             then context_color_tag self else None in
  let template :=
    match ctx with
    | Some c => str (colorize (colorizer self) (Mark_init msg (TagStr c)) None)
    | None => msg
    end in
  let cfunc := λ v : V, colorize (colorizer self) v ctx in
  Printer_call self msg args kwargs s
  = match str_format (cfunc <$> args) (cfunc <$> kwargs) template with
    | Ok text => (Ok tt, (s ++ [text; newline])%list)
    | Raise e => (Raise e, s)
    end
  ∧ ∀ text : string,
      getvalue (s ++ [text; newline])%list = getvalue s +:+ text +:+ newline.
Proof.
  intros ctx template cfunc. split.
  - subst ctx template cfunc. unfold Printer_call.
    destruct (context_color_tag self) as [[|a c]|];
      unfold truthy, option_truthy, string_truthy; cbv beta iota zeta;
      unfold mbind, IO_bind, lift, write;
      (destruct (str_format _ _ _); [by rewrite <- app_assoc | done]).
  - intros text. unfold getvalue.
    by rewrite join_app, !join_cons, join_nil, string_app_nil_r.
Qed.

(** ** Claim on the construction of a colorizer *)

(** C10.  Built on the empty palette, a colorizer is what it is when
    built without palette argument: the palette of the instance is the
    built-in [default_color_map] of its class (there is none on
    [GenericColorizer], where both constructions raise), so every tag list
    resolves the same; in particular a [Colorizer] built on the empty
    palette still colours the tag ["error"]. *)
Theorem C10_empty_palette_is_replaced_by_default (colorama : Colorama)
    (cls : klass) (d : option string) :
  GenericColorizer_init colorama cls (Some ∅) d
  = GenericColorizer_init colorama cls None d
  ∧ GenericColorizer_init colorama cls (Some ∅) d
    = match default_color_map colorama cls with
      | Some m => Ok (mkColorizer m d)
      | None => Raise AttributeError
      end
  ∧ (∃ c,
       GenericColorizer_init colorama Colorizer_class (Some ∅) d = Ok c
       ∧ GenericColorizer_init colorama Colorizer_class None d = Ok c
       ∧ get_color_pair c (TagList ["error"]) None
         = (Fore_RED colorama, Style_RESET_ALL colorama))
  ∧ (∃ c,
       GenericColorizer_init colorama MonochromaticColorizer_class (Some ∅) d = Ok c
       ∧ GenericColorizer_init colorama MonochromaticColorizer_class None d = Ok c
       ∧ get_color_pair c (TagList ["important"]) None = ("**", "**")).
Proof.
  split; [| split; [| split]].
  - done.
  - unfold GenericColorizer_init. cbn. by destruct (default_color_map _ _).
  - eexists. split; [reflexivity |]. split; [reflexivity |].
    rewrite get_color_pair_single with (sa := Fore_RED colorama)
                                       (ea := Style_RESET_ALL colorama); done.
  - eexists. split; [reflexivity |]. split; [reflexivity |]. done.
Qed.

(** * Further properties *)

(** ** Formatting a template *)

Lemma string_app_cons (c : ascii) (s t : string) :
  String c s +:+ t = String c (s +:+ t).
Proof. done. Qed.

Lemma string_app_snoc (out : string) (c : ascii) (s : string) :
  (out +:+ String c "") +:+ s = out +:+ String c s.
Proof. by rewrite string_app_assoc. Qed.



Section formatting.
Context {V : Type} `{Str V}.
Implicit Types (args : list V) (kwargs : gmap string V).
Implicit Types (an : an_state * nat) (out pre rest : string).

(** Literal text is copied to the output. *)
Lemma format_from_literal args kwargs an out pre rest :
  no_braces pre = true →
  format_from args kwargs Text an out (pre +:+ rest)
  = format_from args kwargs Text an (out +:+ pre) rest.
Proof.
  revert out. induction pre as [|c pre IH]; intros out Hpre.
  - by rewrite string_app_nil_r.
  - cbn [no_braces] in Hpre.
    apply andb_true_iff in Hpre as [Hc Hpre].
    apply andb_true_iff in Hc as [Hopen Hclose].
    apply negb_true_iff in Hopen, Hclose.
    rewrite string_app_cons. cbn [format_from].
    rewrite Hopen, Hclose, (IH _ Hpre). by rewrite string_app_snoc.
Qed.

Lemma str_format_literal args kwargs pre :
  no_braces pre = true → str_format args kwargs pre = Ok pre.
Proof.
  intros Hpre. unfold str_format.
  rewrite <- (string_app_nil_r pre) at 1.
  by rewrite (format_from_literal _ _ _ _ _ _ Hpre).
Qed.


End formatting.



Section auto_numbering.
Context {V : Type} `{Str V}.
Implicit Types (args vs : list V) (kwargs : gmap string V).

(** Automatically numbered fields take the positional arguments in
    order, starting after the ones already used. *)
Lemma format_from_auto kwargs lits last used vs out st :
  st ≠ ANS_MANUAL →
  Forall (λ lit, no_braces lit = true) lits → no_braces last = true →
  format_from (used ++ vs) kwargs Text (st, length used) out
    (auto_template lits last)
  = if (length lits <=? length vs)%nat
    then Ok (out +:+ auto_text lits vs last)
    else Raise IndexError.
Proof.
  intros Hst Hlits Hlast. revert used vs out st Hst.
  induction Hlits as [|lit lits Hlit _ IH]; intros used vs out st Hst.
  - cbn [auto_template auto_text length Nat.leb].
    rewrite <- (string_app_nil_r last) at 1.
    by rewrite (format_from_literal _ _ _ _ _ _ Hlast).
  - cbn [auto_template]. rewrite (format_from_literal _ _ _ _ _ _ Hlit).
    change ("{}" +:+ auto_template lits last)
      with (String "{" (String "}" (auto_template lits last))).
    cbn [format_from].
    assert (ascii_in "{" "{" = true) as -> by done.
    assert (ascii_in "}" "{" = false) as -> by done.
    assert (ascii_in "}" "}" = true) as -> by done.
    assert (get_field (used ++ vs) kwargs "" (st, length used)
            = match vs with
              | v :: _ => Ok (v, (ANS_AUTO, S (length used)))
              | [] => Raise IndexError
              end) as ->.
    { unfold get_field. cbn [fst snd].
      destruct vs as [|v vs].
      - rewrite app_nil_r, (lookup_ge_None_2 used (length used)) by lia.
        by destruct st.
      - rewrite list_lookup_middle by done. by destruct st. }
    destruct vs as [|v vs]; [done |].
    cbn [result_bind auto_text length].
    replace (used ++ v :: vs)%list with ((used ++ [v]) ++ vs)%list
      by by rewrite <- app_assoc.
    replace (S (length used)) with (length (used ++ [v])%list)
      by (rewrite length_app; cbn; lia).
    rewrite IH by done.
    change (S (length lits) <=? S (length vs))%nat
      with (length lits <=? length vs)%nat.
    destruct (length lits <=? length vs)%nat; [| done].
    by rewrite !string_app_assoc.
Qed.


Lemma str_format_auto args kwargs lits last :
  Forall (λ lit, no_braces lit = true) lits → no_braces last = true →
  str_format args kwargs (auto_template lits last)
  = if (length lits <=? length args)%nat
    then Ok (auto_text lits args last)
    else Raise IndexError.
Proof.
  intros Hlits Hlast. unfold str_format.
  by apply (format_from_auto kwargs lits last [] args "" ANS_INIT).
Qed.
End auto_numbering.

(** ** The printer *)

Section printing.
Context {V : Type} `{Colorizable V, Str V}.
Implicit Types (self : GenericColorizer) (args : list V).
Implicit Types (kwargs : gmap string V) (s : stream).

(** What a call does once the template and the colorizing function are
    chosen. *)
Lemma Printer_call_without_context self ctx msg args kwargs s :
  truthy ctx = false →
  Printer_call (mkPrinter self ctx) msg args kwargs s
  = match str_format ((λ v, colorize self v None) <$> args)
            ((λ v, colorize self v None) <$> kwargs) msg with
    | Ok text => (Ok tt, (s ++ [text; newline])%list)
    | Raise e => (Raise e, s)
    end.
Proof.
  intros Hctx. unfold Printer_call. cbn [context_color_tag colorizer].
  destruct ctx as [[|c ctx]|]; try done;
    unfold mbind, IO_bind, lift, write, truthy, string_truthy; cbv beta iota;
    (destruct (str_format _ _ msg); [by rewrite <- app_assoc | done]).
Qed.

Lemma Printer_call_with_context self c msg args kwargs s :
  c ≠ "" →
  Printer_call (mkPrinter self (Some c)) msg args kwargs s
  = match str_format ((λ v, colorize self v (Some c)) <$> args)
            ((λ v, colorize self v (Some c)) <$> kwargs)
            ((get_color_pair self (TagList [c]) None).1 +:+ msg
             +:+ (get_color_pair self (TagList [c]) None).2) with
    | Ok text => (Ok tt, (s ++ [text; newline])%list)
    | Raise e => (Raise e, s)
    end.
Proof.
  intros Hc. unfold Printer_call. cbn [context_color_tag colorizer].
  destruct c as [|a c]; [done |].
  unfold mbind, IO_bind, lift, write, truthy at 1, string_truthy.
  cbv beta iota.
  change (str (colorize self (Mark_init msg (TagStr (String a c))) None))
    with ((get_color_pair self (TagList [String a c]) None).1 +:+ msg
          +:+ (get_color_pair self (TagList [String a c]) None).2).
  destruct (str_format _ _ _); [by rewrite <- app_assoc | done].
Qed.

Lemma colorize_context_missing self (v : V) c :
  color_map self !! c = None →
  colorize self v (Some c) = colorize self v None.
Proof.
  intros Hc. unfold colorize. destruct (getattr_color_tag v) as [t|]; [| done].
  destruct (truthy t); [| done].
  by rewrite (get_color_pair_context_missing self t (Some c)).
Qed.
End printing.

(** X1.  A printer without context (none, or the empty string) given a
    message without braces writes the message unchanged and then a newline,
    whatever positional and named values come with it. *)
Theorem X1_printer_literal_message `{Colorizable V, Str V}
    (self : GenericColorizer) ctx msg (args : list V)
    (kwargs : gmap string V) (s : stream) :
  truthy ctx = false → no_braces msg = true →
  Printer_call (printer self ctx) msg args kwargs s
  = (Ok tt, (s ++ [msg; newline])%list).
Proof.
  intros Hctx Hmsg. unfold printer.
  rewrite (Printer_call_without_context _ _ _ _ _ _ Hctx).
  by rewrite (str_format_literal _ _ _ Hmsg).
Qed.

Lemma X1_printer_literal_message_witness :
  Printer_call (printer (mkColorizer palette_abc (Some "a")) (Some ""))
    "hello, world" ["unused"] (∅ : gmap string string) ["earlier"]
  = (Ok tt, ["earlier"; "hello, world"; newline]).
Proof.
  apply (X1_printer_literal_message (V := string)); reflexivity.
Defined.

(** X2.  A printer without context fills the fields [{}] of a message,
    in order, with the positional values, each rendered as its colorized
    wrapper; the text of a value is inserted as it is, braces included, and
    positional values in excess are ignored. *)
Theorem X2_printer_positional_fields `{Colorizable V, Str V}
    (self : GenericColorizer) ctx lits last (args : list V)
    (kwargs : gmap string V) (s : stream) :
  truthy ctx = false →
  Forall (λ lit, no_braces lit = true) lits → no_braces last = true →
  (length lits ≤ length args)%nat →
  Printer_call (printer self ctx) (auto_template lits last) args kwargs s
  = (Ok tt,
     (s ++ [auto_text lits ((λ v, colorize self v None) <$> args) last;
            newline])%list).
Proof.
  intros Hctx Hlits Hlast Hlen. unfold printer.
  rewrite (Printer_call_without_context _ _ _ _ _ _ Hctx).
  rewrite (str_format_auto _ _ _ _ Hlits Hlast), length_fmap.
  by rewrite (proj2 (Nat.leb_le _ _) Hlen).
Qed.

Lemma X2_printer_positional_fields_witness :
  Printer_call (printer (mkColorizer palette_abc None) None)
    (auto_template ["<"; "> and <"] ">")
    [inr (Mark_init "{x}" (TagList ["a"])); inl "y"; inl "z"]
    (∅ : gmap string (string + Mark string)) []
  = (Ok tt, ["<[{x}]> and <y>"; newline]).
Proof.
  etrans.
  { apply (X2_printer_positional_fields (V := string + Mark string)
             (mkColorizer palette_abc None) None ["<"; "> and <"] ">").
    - reflexivity.
    - repeat constructor.
    - reflexivity.
    - cbn. lia. }
  reflexivity.
Defined.







(** X6.  A printer bound to a context tag that is not in the palette
    prints like a printer without context, except that the message is
    bracketed by the pair of the default tag when there is one in the
    palette.  (The template is tagged through [Mark], modelled as
    above.) *)
Theorem X6_printer_unknown_context `{Colorizable V, Str V}
    (self : GenericColorizer) c msg (args : list V)
    (kwargs : gmap string V) (s : stream) :
  c ≠ "" → color_map self !! c = None →
  Printer_call (printer self (Some c)) msg args kwargs s
  = Printer_call (printer self None)
      match dict_get (color_map self) (default_color_tag self) with
      | Some (sd, ed) => sd +:+ msg +:+ ed
      | None => msg
      end
      args kwargs s.
Proof.
  intros Hc Hlk. unfold printer.
  rewrite (Printer_call_with_context _ _ _ _ _ _ Hc).
  rewrite (Printer_call_without_context _ None) by done.
  rewrite (list_fmap_ext (λ v, colorize self v (Some c))
             (λ v, colorize self v None) args)
    by (intros; by apply colorize_context_missing).
  rewrite (map_fmap_ext (λ v, colorize self v (Some c))
             (λ v, colorize self v None) kwargs)
    by (intros; by apply colorize_context_missing).
  rewrite get_color_pair_no_context, tag_pairs_fallback
    by (cbn; by rewrite Hlk).
  destruct (dict_get _ _) as [[sd ed]|]; cbn [fst snd fmap list_fmap reverse].
  - change (reverse [(sd, ed)]) with [(sd, ed)]. cbn [fst snd fmap list_fmap].
    by rewrite !join_singleton.
  - by rewrite join_nil, string_app_nil_r.
Qed.

Lemma X6_printer_unknown_context_witness :
  Printer_call (printer (mkColorizer palette_ab (Some "b")) (Some "zz"))
    "hi {}" [Mark_init "you" (TagList ["a"])] (∅ : gmap string (Mark string)) []
  = Printer_call (printer (mkColorizer palette_ab (Some "b")) None)
      ("<" +:+ "hi {}" +:+ ">")
      [Mark_init "you" (TagList ["a"])] (∅ : gmap string (Mark string)) [].
Proof.
  etrans.
  { apply (X6_printer_unknown_context (V := Mark string)
             (mkColorizer palette_ab (Some "b")) "zz");
      [discriminate | reflexivity]. }
  reflexivity.
Defined.

(** ** Colorizing and rendering *)

Lemma get_color_pair_all_missing (self : GenericColorizer) (l : list string)
    (ctx : option string) :
  Forall (λ t, color_map self !! t = None) l →
  dict_get (color_map self) (default_color_tag self) = None →
  dict_get (color_map self) ctx = None →
  get_color_pair self (TagList l) ctx = ("", "").
Proof.
  intros Hall Hd Hctx.
  rewrite (get_color_pair_context_missing _ _ _ Hctx), get_color_pair_no_context.
  rewrite tag_pairs_fallback by by apply omap_lookup_all_missing.
  by rewrite Hd.
Qed.

Section rendering.
Context {V : Type} `{Colorizable V, Str V}.
Implicit Types (self : GenericColorizer) (v : V).

(** A tagged value renders between the two sequences of its pair. *)
Lemma str_colorize_tagged self v (t : tags) ctx :
  getattr_color_tag v = Some t → truthy t = true →
  str (colorize self v ctx)
  = (get_color_pair self t ctx).1 +:+ str v +:+ (get_color_pair self t ctx).2.
Proof.
  intros Hv Ht. unfold colorize. rewrite Hv, Ht. done.
Qed.
End rendering.

(** X7.  A value without [color_tag] attribute, or whose [color_tag] is
    falsy (the empty string, the empty list), is wrapped without colour
    pair and renders as the value itself, whatever the palette, the default
    tag and the context tag: the default tag never colours an untagged
    value. *)
Theorem X7_colorize_untagged `{Colorizable V, Str V}
    (self : GenericColorizer) (v : V) (ctx : option string) :
  truthy (getattr_color_tag v) = false →
  colorize self v ctx = mkColorizedObject v None
  ∧ str (colorize self v ctx) = str v.
Proof.
  intros Hv. unfold colorize.
  destruct (getattr_color_tag v) as [t|]; [| done].
  cbn in Hv. by rewrite Hv.
Qed.

Lemma X7_colorize_untagged_witness :
  colorize (mkColorizer palette_ab (Some "a")) (Mark_init "x" (TagList [])) (Some "b")
  = mkColorizedObject (Mark_init "x" (TagList [])) None
  ∧ str (colorize (mkColorizer palette_ab (Some "a"))
           (Mark_init "x" (TagList [])) (Some "b")) = "x".
Proof.
  destruct (X7_colorize_untagged (V := Mark string)
              (mkColorizer palette_ab (Some "a"))
              (Mark_init "x" (TagList [])) (Some "b")) as [Hwrap Hstr];
    [reflexivity |].
  split; [exact Hwrap | exact Hstr].
Defined.

(** X8.  A value tagged with a non-empty list of tags that are all
    unknown, when the default tag and the context tag are not found either,
    renders exactly as the value itself, although its wrapper carries the
    pair [("", "")] and not the absence of a pair. *)
Theorem X8_colorize_unknown_tags `{Colorizable V, Str V}
    (self : GenericColorizer) (v : V) (l : list string) (ctx : option string) :
  getattr_color_tag v = Some (TagList l) → l ≠ [] →
  Forall (λ t, color_map self !! t = None) l →
  dict_get (color_map self) (default_color_tag self) = None →
  dict_get (color_map self) ctx = None →
  color_pair (colorize self v ctx) = Some ("", "")
  ∧ str (colorize self v ctx) = str v.
Proof.
  intros Hv Hl Hall Hd Hctx.
  assert (get_color_pair self (TagList l) ctx = ("", "")) as Hpair.
  { by apply get_color_pair_all_missing. }
  split.
  - unfold colorize. rewrite Hv. destruct l; [done |]. cbn. by rewrite Hpair.
  - rewrite (str_colorize_tagged self v (TagList l)); [| done | by destruct l].
    rewrite Hpair. cbn [fst snd]. by rewrite string_app_nil_r.
Qed.

Lemma X8_colorize_unknown_tags_witness :
  color_pair (colorize (mkColorizer palette_ab (Some "y"))
                (Mark_init "x" (TagList ["p"; "q"])) (Some "z"))
  = Some ("", "")
  ∧ str (colorize (mkColorizer palette_ab (Some "y"))
           (Mark_init "x" (TagList ["p"; "q"])) (Some "z")) = "x".
Proof.
  destruct (X8_colorize_unknown_tags (V := Mark string)
              (mkColorizer palette_ab (Some "y"))
              (Mark_init "x" (TagList ["p"; "q"])) ["p"; "q"] (Some "z"))
    as [Hpair Hstr].
  - reflexivity.
  - discriminate.
  - repeat constructor.
  - reflexivity.
  - reflexivity.
  - split; [exact Hpair | exact Hstr].
Defined.

(** *** Formatting depends on the values through their renderings only *)

Section format_ext.
Context {V W : Type} `{Str V, Str W}.
Variables (args : list V) (args' : list W).
Variables (kwargs : gmap string V) (kwargs' : gmap string W).
Hypothesis Hargs : str <$> args = str <$> args'.
Hypothesis Hkwargs : str <$> kwargs = str <$> kwargs'.





End format_ext.



(** ** Equality of wrappers *)

Lemma color_pair_py_eq_sym (x y : option color_pair_t) : py_eq x y = py_eq y x.
Proof.
  destruct x as [[a b]|], y as [[c d]|]; cbn; try done.
  by rewrite (String.eqb_sym a c), (String.eqb_sym b d).
Qed.

Lemma color_pair_py_eq_refl (x : option color_pair_t) : py_eq x x = true.
Proof. by apply color_pair_py_eq_true. Qed.

(** X10.  On wrappers of plain strings, [==] holds exactly between
    wrappers with the same string and the same colour pair. *)
Theorem X10_ColorizedObject_eq_on_strings (a b : ColorizedObject string) :
  py_eq a b = true ↔ a = b.
Proof.
  destruct a as [va pa], b as [vb pb].
  unfold py_eq at 1, ColorizedObject_eq. cbn [obj color_pair].
  rewrite andb_true_iff, color_pair_py_eq_true.
  unfold py_eq, string_py_eq. rewrite String.eqb_eq.
  split; [by intros [-> ->] | by intros [= -> ->]].
Qed.

(** X11.  A wrapper is equal to itself exactly when its inner object is
    equal to itself, and the comparison of two wrappers is symmetric
    whenever the comparison of their inner objects is. *)
Theorem X11_ColorizedObject_eq_refl_sym `{PyEq V} (a b : ColorizedObject V) :
  py_eq a a = py_eq (obj a) (obj a)
  ∧ (py_eq (obj a) (obj b) = py_eq (obj b) (obj a) → py_eq a b = py_eq b a).
Proof.
  split.
  - unfold py_eq at 1, ColorizedObject_eq.
    by rewrite color_pair_py_eq_refl, andb_true_r.
  - intros Hsym.
    change (py_eq (obj b) (obj a) && py_eq (color_pair b) (color_pair a)
            = py_eq (obj a) (obj b) && py_eq (color_pair a) (color_pair b)).
    by rewrite Hsym, color_pair_py_eq_sym.
Qed.

Lemma X11_ColorizedObject_eq_refl_sym_witness :
  py_eq (mkColorizedObject "v" (Some ("<", ">"))) (mkColorizedObject "w" None)
  = py_eq (mkColorizedObject "w" None) (mkColorizedObject "v" (Some ("<", ">"))).
Proof.
  apply (proj2 (X11_ColorizedObject_eq_refl_sym (V := string)
                  (mkColorizedObject "v" (Some ("<", ">")))
                  (mkColorizedObject "w" None))).
  reflexivity.
Defined.

(** ** More on the resolver *)

Section resolver_composition.
Implicit Types (self : GenericColorizer) (l : list string).

Lemma tag_pairs_no_default self l :
  dict_get (color_map self) (default_color_tag self) = None →
  tag_pairs self (TagList l) = omap (λ tag, color_map self !! tag) l.
Proof.
  intros Hd. destruct (omap (λ tag, color_map self !! tag) l) eqn:Hkept.
  - by rewrite (tag_pairs_fallback _ _ Hkept), Hd.
  - rewrite tag_pairs_found; [done | by rewrite Hkept].
Qed.

Lemma tag_pairs_app self l1 l2 :
  (omap (λ tag, color_map self !! tag) l1 ≠ []
   ∧ omap (λ tag, color_map self !! tag) l2 ≠ [])
  ∨ dict_get (color_map self) (default_color_tag self) = None →
  tag_pairs self (TagList (l1 ++ l2))
  = (tag_pairs self (TagList l1) ++ tag_pairs self (TagList l2))%list.
Proof.
  intros [[H1 H2] | Hd].
  - rewrite !tag_pairs_found; try done; rewrite omap_app; [done |].
    intros [? _]%app_eq_nil. done.
  - by rewrite !tag_pairs_no_default, omap_app.
Qed.
End resolver_composition.

(** X12.  Without context, resolving the concatenation of two tag lists
    nests the second inside the first: the starts follow each other and the
    stops are in the opposite order.  This holds when each list has a tag
    of the palette, and for all lists when no default tag is found. *)
Theorem X12_get_color_pair_app (self : GenericColorizer) (l1 l2 : list string) :
  (omap (λ tag, color_map self !! tag) l1 ≠ []
   ∧ omap (λ tag, color_map self !! tag) l2 ≠ [])
  ∨ dict_get (color_map self) (default_color_tag self) = None →
  get_color_pair self (TagList (l1 ++ l2)) None
  = ((get_color_pair self (TagList l1) None).1
       +:+ (get_color_pair self (TagList l2) None).1,
     (get_color_pair self (TagList l2) None).2
       +:+ (get_color_pair self (TagList l1) None).2).
Proof.
  intros Hyp. rewrite !get_color_pair_no_context, (tag_pairs_app _ _ _ Hyp).
  cbn [fst snd]. by rewrite reverse_app, !fmap_app, !join_app.
Qed.

Lemma X12_get_color_pair_app_witness :
  get_color_pair (mkColorizer palette_abc (Some "c")) (TagList (["a"; "x"] ++ ["b"; "a"])) None
  = ("[" +:+ "([", "])" +:+ "]")
  ∧ get_color_pair (mkColorizer palette_abc None) (TagList (["x"] ++ ["b"])) None
    = ("" +:+ "(", ")" +:+ "").
Proof.
  split.
  - etrans.
    { apply (X12_get_color_pair_app (mkColorizer palette_abc (Some "c"))
               ["a"; "x"] ["b"; "a"]).
      left. split; discriminate. }
    reflexivity.
  - etrans.
    { apply (X12_get_color_pair_app (mkColorizer palette_abc None) ["x"] ["b"]).
      right. reflexivity. }
    reflexivity.
Defined.

(** X13.  Under a non-empty context tag of the palette with pair
    [(sc, ec)], a tag list without any known tag resolves to the default
    pair [(sd, ed)] bracketed like a tag, [(ec + sc + sd, ed + ec + sc)];
    when no default is found either, start and stop are both
    [ec + sc]. *)
Theorem X13_context_around_default (self : GenericColorizer)
    (l : list string) (c sc ec : string) :
  c ≠ "" → color_map self !! c = Some (sc, ec) →
  Forall (λ t, color_map self !! t = None) l →
  get_color_pair self (TagList l) (Some c)
  = match dict_get (color_map self) (default_color_tag self) with
    | Some (sd, ed) => (ec +:+ sc +:+ sd, ed +:+ ec +:+ sc)
    | None => (ec +:+ sc, ec +:+ sc)
    end.
Proof.
  intros Hc Hlk Hall.
  rewrite (get_color_pair_context_found _ _ _ _ _ Hc Hlk).
  rewrite get_color_pair_no_context, tag_pairs_fallback
    by by apply omap_lookup_all_missing.
  destruct (dict_get _ _) as [[sd ed]|].
  - change (reverse [(sd, ed)]) with [(sd, ed)].
    cbn [fst snd fmap list_fmap]. by rewrite !join_singleton.
  - cbn. by rewrite string_app_nil_r.
Qed.

Lemma X13_context_around_default_witness :
  get_color_pair (mkColorizer palette_abc (Some "a")) (TagList ["x"]) (Some "c")
  = (">" +:+ "<" +:+ "[", "]" +:+ ">" +:+ "<")
  ∧ get_color_pair (mkColorizer palette_abc None) (TagList ["x"]) (Some "c")
    = (">" +:+ "<", ">" +:+ "<").
Proof.
  split.
  - etrans.
    { apply (X13_context_around_default (mkColorizer palette_abc (Some "a"))
               ["x"] "c" "<" ">"); [discriminate | reflexivity |].
      repeat constructor. }
    reflexivity.
  - etrans.
    { apply (X13_context_around_default (mkColorizer palette_abc None)
               ["x"] "c" "<" ">"); [discriminate | reflexivity |].
      repeat constructor. }
    reflexivity.
Defined.

(** ** Construction and built-in palettes *)

(** X14.  A non-empty palette given to the constructor is the palette of
    the instance as it is, for every class ([GenericColorizer], without
    built-in palette, included): the built-in palette is not merged in. *)
Theorem X14_init_keeps_non_empty_palette (colorama : Colorama) (cls : klass)
    (m : gmap string color_pair_t) (d : option string) :
  m ≠ ∅ →
  GenericColorizer_init colorama cls (Some m) d = Ok (mkColorizer m d).
Proof.
  intros Hm. unfold GenericColorizer_init.
  cbn [truthy option_truthy]. unfold truthy, gmap_truthy.
  by rewrite bool_decide_eq_false_2.
Qed.

Lemma X14_init_keeps_non_empty_palette_witness :
  GenericColorizer_init (mkColorama "c" "g" "y" "r" "R" "d" "b" "0")
    GenericColorizer_class (Some palette_ab) (Some "a")
  = Ok (mkColorizer palette_ab (Some "a")).
Proof.
  apply X14_init_keeps_non_empty_palette.
  intros Heq. apply (f_equal (λ m, m !! "a")) in Heq. discriminate Heq.
Defined.

(** X15.  The built-in palette of [Colorizer] has exactly the seven tags
    debug, info, important, success, warning, error and critical, and every
    one of its pairs stops with [Style.RESET_ALL]. *)
Theorem X15_Colorizer_default_color_map (colorama : Colorama) :
  ∃ m,
    default_color_map colorama Colorizer_class = Some m
    ∧ dom m = list_to_set ["debug"; "info"; "important"; "success";
                           "warning"; "error"; "critical"]
    ∧ map_Forall (λ _ p, p.2 = Style_RESET_ALL colorama) m.
Proof.
  eexists. split; [reflexivity |]. split.
  - rewrite !dom_insert_L, dom_empty_L. cbn [list_to_set foldr]. done.
  - repeat (apply map_Forall_insert_2; [done |]). apply map_Forall_empty.
Qed.

(** X16.  A [MonochromaticColorizer] built without palette and without
    default tag marks the tag important with asterisks and leaves every
    other tag without colour. *)
Theorem X16_Monochromatic_only_important (colorama : Colorama)
    (l : list string) (ctx : option string) :
  Forall (λ t, t ≠ "important") l → ctx ≠ Some "important" →
  GenericColorizer_init colorama MonochromaticColorizer_class None None
  = Ok (mkColorizer {[ "important" := ("**", "**") ]} None)
  ∧ get_color_pair (mkColorizer {[ "important" := ("**", "**") ]} None)
      (TagList ["important"]) None = ("**", "**")
  ∧ get_color_pair (mkColorizer {[ "important" := ("**", "**") ]} None)
      (TagList l) ctx = ("", "").
Proof.
  intros Hl Hctx. split; [reflexivity |]. split; [done |].
  apply get_color_pair_all_missing.
  - cbn [color_map]. eapply Forall_impl; [exact Hl |].
    intros t Ht. by apply lookup_singleton_ne.
  - done.
  - destruct ctx as [c|]; [| done]. cbn.
    apply lookup_singleton_ne. congruence.
Qed.

Lemma X16_Monochromatic_only_important_witness :
  get_color_pair (mkColorizer {[ "important" := ("**", "**") ]} None)
    (TagList ["error"; "info"]) (Some "debug") = ("", "").
Proof.
  apply (X16_Monochromatic_only_important
           (mkColorama "c" "g" "y" "r" "R" "d" "b" "0")
           ["error"; "info"] (Some "debug")).
  - repeat constructor; discriminate.
  - discriminate.
Defined.
